(** * keystone.py: wall-angle measurement for a TMF882X time-of-flight sensor

    A shallow embedding of [src/keystone.py] and the properties of its four
    functions [calc_angle], [pick_best], [get_data_from_EVM_GUI] and
    [animate].

    Modelling conventions.
    - A Python exception is a value: a computation that can raise returns
      [exc A], either [Ret a] or [Raise e].
    - Python floats are exact numbers: real numbers ([R]) in the geometry
      ([math.sqrt], [math.cos], [math.sin], [math.asin], [math.radians],
      [math.degrees]), rationals ([Q]) for the histogram average.  Rounding
      of IEEE doubles, overflow, infinities and NaN are outside the model.
    - Python integers are [Z]; text is a [string] of 8-bit characters read as
      the code points U+0000 to U+00FF.
    - The socket is the list of what the successive [recv] calls deliver,
      each a chunk of decoded text or a time-out ([socket.timeout]).
    - The plotting axes are the list of the calls made on them, in order. *)

From Stdlib Require Import Reals Lra Lia ZArith QArith String Ascii List.
From stdpp Require Import base list strings.

(** ** Exceptions *)

Inductive exn : Type :=
| ValueError
| IndexError
| ZeroDivisionError.

Inductive exc (A : Type) : Type :=
| Ret (a : A)
| Raise (e : exn).

Arguments Ret {A} a.
Arguments Raise {A} e.

#[global] Instance exc_ret : MRet exc := fun A a => Ret a.

#[global] Instance exc_bind : MBind exc := fun A B k m =>
  match m with
  | Ret a => k a
  | Raise e => Raise e
  end.

(** * Geometry engine *)

Module Geometry.

Local Open Scope R_scope.

(** [math.radians] and [math.degrees]. *)
Definition radians (x : R) : R := x * (PI / 180).
Definition degrees (x : R) : R := x * (180 / PI).

(** [math.sqrt]: "math domain error" ([ValueError]) below zero. *)
Definition math_sqrt (x : R) : exc R :=
  if Rlt_dec x 0 then Raise ValueError else Ret (sqrt x).

(** [math.asin]: [ValueError] outside [-1, 1]. *)
Definition math_asin (x : R) : exc R :=
  if Rle_dec (-1) x
  then if Rle_dec x 1 then Ret (asin x) else Raise ValueError
  else Raise ValueError.

(** [x / y]: [ZeroDivisionError] when the divisor is zero. *)
Definition truediv (x y : R) : exc R :=
  if Req_dec_T y 0 then Raise ZeroDivisionError else Ret (x / y).

(** The first statement of the [try] block: the third side of the triangle
    by the law of cosines. *)
Definition triangle_side (center edge alpha : R) : exc R :=
  math_sqrt (center ^ 2 + edge ^ 2
             - 2 * center * edge * cos (radians alpha)).

(** The body of the [try] block of [calc_angle]. *)
Definition calc_angle_try (center edge alpha : R) : exc R :=
  a ← triangle_side center edge alpha;
  q ← truediv edge a;
  g ← math_asin (q * sin (radians alpha));
  let gamma := degrees g in
  let phi := 90 - gamma in
  Ret (if Rgt_dec (edge ^ 2) (center ^ 2 + a ^ 2) then - phi else phi).

(** [calc_angle]: the [try] block with its [except ZeroDivisionError]
    handler; every other exception propagates. *)
Definition calc_angle (center edge alpha : R) : exc R :=
  match calc_angle_try center edge alpha with
  | Raise ZeroDivisionError => Ret 0
  | r => r
  end.

(** The two zone separations [animate] passes as [alpha]. *)
Definition angle_zone_left_right : R := 33 / 3.
Definition angle_zone_up_down : R := 32 / 3.


(** A result is within [tol] degrees of zero. *)
Definition near_zero (tol : R) (x : exc R) : Prop :=
  match x with
  | Ret p => Rabs p <= tol
  | Raise _ => False
  end.

(** The argument of the square root, as an expression of its own. *)
Definition side_sq (center edge alpha : R) : R :=
  center ^ 2 + edge ^ 2 - 2 * center * edge * cos (radians alpha).

(** What [calc_angle] computes on a proper triangle, in closed form. *)
Definition phi_of (center edge alpha : R) : R :=
  90 - degrees (asin (edge / sqrt (side_sq center edge alpha)
                      * sin (radians alpha))).

End Geometry.

(** * Python built-ins used by the reader and the selection policy *)

Module Py.

Local Open Scope Z_scope.

(** [l[i]] for a literal, non-negative index. *)
Definition index {A : Type} (l : list A) (i : nat) : exc A :=
  match l !! i with
  | Some x => Ret x
  | None => Raise IndexError
  end.

(** [s[i]] on a string. *)
Definition str_index (s : string) (i : nat) : exc ascii :=
  match String.get i s with
  | Some c => Ret c
  | None => Raise IndexError
  end.

(** [l[i] = v] for a computed index: a negative index counts from the end,
    an index out of range raises. *)
Definition setitem {A : Type} (l : list A) (i : Z) (v : A) : exc (list A) :=
  let n := Z.of_nat (length l) in
  if (0 <=? i) && (i <? n) then Ret (<[Z.to_nat i := v]> l)
  else if (- n <=? i) && (i <? 0) then Ret (<[Z.to_nat (n + i) := v]> l)
  else Raise IndexError.

(** [l[a:b]] for literal bounds [0 <= a <= b], and [l[a:]]. *)
Definition slice {A : Type} (a b : nat) (l : list A) : list A :=
  take (b - a) (drop a l).

Definition slice_from {A : Type} (a : nat) (l : list A) : list A :=
  drop a l.

(** [max(l)]: [ValueError] on an empty sequence. *)
Definition max (l : list Z) : exc Z :=
  match l with
  | [] => Raise ValueError
  | x :: rest => Ret (foldl Z.max x rest)
  end.

(** [sum(l)]. *)
Definition sum (l : list Z) : Z := foldr Z.add 0 l.

(** [n / d] of an integer by a positive literal: true division, kept as an
    exact rational in lowest terms. *)
Definition truediv_int (n : Z) (d : positive) : Q := Qred (n # d).

(** [s.split(sep)] for a non-empty separator: the pieces between the
    non-overlapping occurrences of [sep], scanning from the left.  [skip]
    counts the characters of a matched separator still to be dropped. *)
Fixpoint split_go (sep : string) (skip : nat) (s : string) : list string :=
  match s with
  | EmptyString => [EmptyString]
  | String c rest =>
      match skip with
      | S k => split_go sep k rest
      | O =>
          if String.prefix sep s
          then EmptyString :: split_go sep (String.length sep - 1) rest
          else match split_go sep 0 rest with
               | [] => [String c EmptyString]
               | w :: ws => String c w :: ws
               end
      end
  end.

Definition split (sep s : string) : list string := split_go sep 0 s.

(** Characters [int] strips: the white space of the code points below 256. *)
Definition is_space (c : ascii) : bool :=
  let n := nat_of_ascii c in
  ((9 <=? n) && (n <=? 13) || (28 <=? n) && (n <=? 32)
   || (n =? 133) || (n =? 160))%nat.

Definition digit_of (c : ascii) : option Z :=
  let n := nat_of_ascii c in
  if ((48 <=? n) && (n <=? 57))%nat then Some (Z.of_nat (n - 48)) else None.

Fixpoint lstrip (s : string) : string :=
  match s with
  | EmptyString => EmptyString
  | String c rest => if is_space c then lstrip rest else s
  end.

Fixpoint all_space (s : string) : bool :=
  match s with
  | EmptyString => true
  | String c rest => is_space c && all_space rest
  end.

(** The digits after the first one: single underscores may separate digits,
    and white space may follow the last digit. *)
Fixpoint int_digits (acc : Z) (s : string) : option Z :=
  match s with
  | EmptyString => Some acc
  | String c rest =>
      match digit_of c with
      | Some d => int_digits (10 * acc + d) rest
      | None =>
          if Ascii.eqb c "_"
          then match rest with
               | String c' rest' =>
                   match digit_of c' with
                   | Some d => int_digits (10 * acc + d) rest'
                   | None => None
                   end
               | EmptyString => None
               end
          else if all_space s then Some acc else None
      end
  end.

Definition int_unsigned (s : string) : option Z :=
  match s with
  | String c rest =>
      match digit_of c with
      | Some d => int_digits d rest
      | None => None
      end
  | EmptyString => None
  end.

(** [int(s)] on a string, base 10, as an option. *)
Definition parse_int (s : string) : option Z :=
  match lstrip s with
  | String c rest =>
      if Ascii.eqb c "-" then Z.opp <$> int_unsigned rest
      else if Ascii.eqb c "+" then int_unsigned rest
      else int_unsigned (String c rest)
  | EmptyString => None
  end.

(** [int(s)]: [ValueError] when the text is not an integer literal. *)
Definition int (s : string) : exc Z :=
  match parse_int s with
  | Some z => Ret z
  | None => Raise ValueError
  end.

(** [[int(x) for x in l]]. *)
Definition ints (l : list string) : exc (list Z) := mapM int l.

End Py.

(** * Reading selection policy *)

Module Selection.

Local Open Scope Z_scope.

(** [pick_best]: the first target when its confidence is greater, else the
    second. *)
Definition pick_best (obj : list Z) : exc Z :=
  c1 ← Py.index obj 1;
  c2 ← Py.index obj 3;
  if c1 >? c2 then Py.index obj 0 else Py.index obj 2.

End Selection.

(** * Protocol reader *)

Module Reader.

Local Open Scope Z_scope.
Local Open Scope string_scope.

(** The first component of the returned tuple: the literal text of the
    time-out path, or the f-string [f'XTalk {xtalk} BG {background}'], kept
    as the two lists it prints. *)
Inductive description : Type :=
| Text (s : string)
| XTalkBG (xtalk : list Z) (background : list Q).

(** The second and third components are lists on the normal path and the
    integer [0] on the time-out path. *)
Inductive int_or_list (A : Type) : Type :=
| AnInt (z : Z)
| AList (l : list A).

Arguments AnInt {A} z.
Arguments AList {A} l.

(** The returned tuple
    [(description, xtalk, background, iterations, obj)]; [obj] is [None] on
    the time-out path. *)
Record snapshot : Type := Snapshot {
  description_of : description;
  xtalk_of : int_or_list Z;
  background_of : int_or_list Q;
  iterations_of : Z;
  obj_of : option (list Z)
}.

(** The variables the loop updates: the locals [xtalk], [background],
    [iterations] and the global [tof_id] ([None] until first assigned). *)
Record state : Type := State {
  xtalk : list Z;
  background : list Q;
  iterations : Z;
  tof_id : option string
}.

(** How a statement ends: normally, by [return], or by an exception. *)
Inductive flow (A : Type) : Type :=
| Next (a : A)
| Return (r : snapshot)
| Throw (e : exn).

Arguments Next {A} a.
Arguments Return {A} r.
Arguments Throw {A} e.

Definition M (A : Type) : Type := state -> state * flow A.

#[global] Instance M_ret : MRet M := fun A a st => (st, Next a).

#[global] Instance M_bind : MBind M := fun A B k m st =>
  match m st with
  | (st', Next a) => k a st'
  | (st', Return r) => (st', Return r)
  | (st', Throw e) => (st', Throw e)
  end.

Definition lift {A : Type} (x : exc A) : M A := fun st =>
  (st, match x with Ret a => Next a | Raise e => Throw e end).

Definition get : M state := fun st => (st, Next st).

Definition put (st : state) : M unit := fun _ => (st, Next tt).

Definition return_ {A : Type} (r : snapshot) : M A := fun st => (st, Return r).

(** [try: body except (ValueError, IndexError): pass]. *)
Definition handled (e : exn) : bool :=
  match e with
  | ValueError | IndexError => true
  | ZeroDivisionError => false
  end.

Definition try_pass (body : M unit) : M unit := fun st =>
  match body st with
  | (st', Throw e) => if handled e then (st', Next tt) else (st', Throw e)
  | r => r
  end.

(** The line separator ['\r\n']. *)
Definition crlf : string :=
  String (ascii_of_nat 13) (String (ascii_of_nat 10) EmptyString).

(** [if data[0] == '#VER': tof_id = f'TMF882X ID ... - App ... - Drv ...'] *)
Definition on_ver (data : list string) : M unit :=
  tag ← lift (Py.index data 0);
  if String.eqb tag "#VER" then
    d1 ← lift (Py.index data 1);
    d2 ← lift (Py.index data 2);
    d3 ← lift (Py.index data 3);
    st ← get;
    put {| xtalk := xtalk st; background := background st;
           iterations := iterations st;
           tof_id := Some ("TMF882X ID " ++ d1 ++ " - App " ++ d2
                           ++ " - Drv " ++ d3) |}
  else mret tt.

(** [if data[0][0:6] == '#HLONG': ...], the histogram record. *)
Definition on_hlong (data : list string) : M unit :=
  tag ← lift (Py.index data 0);
  if String.eqb (substring 0 6 tag) "#HLONG" then
    c ← lift (Py.str_index tag 7);
    entry ← lift (Py.int (String c EmptyString));
    pt_hist ← lift (Py.ints (Py.slice_from 1 data));
    peak ← lift (Py.max (Py.slice 5 20 pt_hist));
    st ← get;
    xtalk' ← lift (Py.setitem (xtalk st) entry peak);
    put {| xtalk := xtalk'; background := background st;
           iterations := iterations st; tof_id := tof_id st |};;
    st ← get;
    background' ← lift (Py.setitem (background st) entry
                          (Py.truediv_int (Py.sum (Py.slice 0 8 pt_hist)) 8));
    put {| xtalk := xtalk st; background := background';
           iterations := iterations st; tof_id := tof_id st |}
  else mret tt.

(** [if data[0] == '#OBJ': obj = ...; return (...)], the terminating
    record. *)
Definition on_obj (data : list string) : M unit :=
  tag ← lift (Py.index data 0);
  if String.eqb tag "#OBJ" then
    obj ← lift (Py.ints (Py.slice_from 5 data));
    st ← get;
    return_ {| description_of := XTalkBG (xtalk st) (background st);
               xtalk_of := AList (xtalk st);
               background_of := AList (background st);
               iterations_of := iterations st;
               obj_of := Some obj |}
  else mret tt.

(** [if data[0] == '#ITT': iterations = int(data[2])] *)
Definition on_itt (data : list string) : M unit :=
  tag ← lift (Py.index data 0);
  if String.eqb tag "#ITT" then
    d2 ← lift (Py.index data 2);
    n ← lift (Py.int d2);
    st ← get;
    put {| xtalk := xtalk st; background := background st;
           iterations := n; tof_id := tof_id st |}
  else mret tt.

(** The body of the inner [try], for one line. *)
Definition process_item (item : string) : M unit :=
  let data := Py.split ";" item in
  on_ver data;;
  on_hlong data;;
  on_obj data;;
  on_itt data.

(** [for item in entries: try: ... except (ValueError, IndexError): pass] *)
Fixpoint for_entries (entries : list string) : M unit :=
  match entries with
  | [] => mret tt
  | item :: rest => try_pass (process_item item);; for_entries rest
  end.

(** The connection: what has been sent, and what the successive [recv]
    calls will deliver, each either a chunk of text or a time-out. *)
Inductive recv_event : Type :=
| Data (s : string)
| Timeout.

Record socket : Type := Socket {
  sent : list string;
  pending : list recv_event
}.

Definition sendall (msg : string) (sock : socket) : socket :=
  {| sent := sent sock ++ [msg]; pending := pending sock |}.

(** The tuple of the [except socket.timeout] path. *)
Definition no_device : snapshot :=
  {| description_of := Text "No device connected";
     xtalk_of := AnInt 0; background_of := AnInt 0;
     iterations_of := 0; obj_of := None |}.

(** [while True: try: s = recv(); for ... except socket.timeout: ...].
    The result is [None] when the known events run out while the loop is
    still waiting. *)
Fixpoint recv_loop (events : list recv_event) (st : state)
  : option (list recv_event * state * exc snapshot) :=
  match events with
  | [] => None
  | Timeout :: later =>
      Some (later,
            {| xtalk := xtalk st; background := background st;
               iterations := iterations st; tof_id := Some "" |},
            Ret no_device)
  | Data s :: later =>
      match for_entries (Py.split crlf s) st with
      | (st', Next _) => recv_loop later st'
      | (st', Return r) => Some (later, st', Ret r)
      | (st', Throw e) => Some (later, st', Raise e)
      end
  end.

(** The state on entry: [xtalk = [0]*10], [background = [0]*10],
    [iterations = 0], and the global as the caller left it. *)
Definition initial (id : option string) : state :=
  {| xtalk := replicate 10 0; background := replicate 10 (0 : Q);
     iterations := 0; tof_id := id |}.

(** [get_data_from_EVM_GUI sock]: the socket and the global [tof_id] go in,
    the socket, the global and the returned tuple (or the exception that
    escapes) come out. *)
Definition get_data_from_EVM_GUI (sock : socket) (id : option string)
  : option (socket * option string * exc snapshot) :=
  let sock1 := sendall "(m0)" sock in
  match recv_loop (pending sock1) (initial id) with
  | None => None
  | Some (later, st, r) =>
      Some ({| sent := sent sock1; pending := later |}, tof_id st, r)
  end.

(** A terminating record: tagged [#OBJ], every field after the fifth an
    integer literal. *)
Definition terminating_record (item : string) : bool :=
  match Py.split ";" item with
  | tag :: fields =>
      String.eqb tag "#OBJ"
      && bool_decide (is_Some (mapM Py.parse_int (drop 4 fields)))
  | [] => false
  end.


(** The state after a run of lines none of which ends the cycle. *)
Definition run_lines (lines : list string) (st : state) : state :=
  (for_entries lines st).1.


(** The two tables keep the ten slots they are created with. *)
Definition ten_slots (st : state) : Prop :=
  length (xtalk st) = 10%nat /\ length (background st) = 10%nat.

(** The tuple returned on an object record with payload [obj]. *)
Definition snapshot_of (st : state) (obj : list Z) : snapshot :=
  {| description_of := XTalkBG (xtalk st) (background st);
     xtalk_of := AList (xtalk st);
     background_of := AList (background st);
     iterations_of := iterations st;
     obj_of := Some obj |}.

End Reader.

(** * The animation callback *)

Module Animate.

Import Geometry Reader.
Local Open Scope Z_scope.
Local Open Scope string_scope.

(** The texts [animate] writes, kept as the values the f-strings print. *)
Inductive label : Type :=
| Millimetres (d : Z)
| ConfText (c : Z)
| IntLabel (c : Z)
| IdentityText (id : option string)
| AnglesText (left right top bottom : R)
| YawPitchText (yaw pitch : R)
| Literal (s : string).

(** The calls made on the axes, [axs[ax]] named by its index: the zones are
    0 to 8, the information row is 9, the 3-D view is 10. *)
Inductive draw : Type :=
| Clear (ax : nat)
| SetXticks (ax : nat)
| SetYticks (ax : nat)
| FrameOff (ax : nat)
| AxisOff (ax : nat)
| SetXlim (ax : nat) (lo hi : Q)
| SetYlim (ax : nat) (lo hi : Q)
| Annotate (ax : nat) (text : label) (x y : Q) (ha : string)
           (color : option string)
| Bar3d (ax : nat)
| ViewInit (ax : nat) (elev azim : R).

(** A statement of [animate]: it appends to the calls made so far and ends
    normally or by an exception. *)
Definition W (A : Type) : Type := list draw -> list draw * exc A.

#[global] Instance W_ret : MRet W := fun A a log => (log, Ret a).

#[global] Instance W_bind : MBind W := fun A B k m log =>
  match m log with
  | (log', Ret a) => k a log'
  | (log', Raise e) => (log', Raise e)
  end.

Definition emit (d : draw) : W unit := fun log => ((log ++ [d])%list, Ret tt).

Definition liftW {A : Type} (x : exc A) : W A := fun log => (log, x).

(** [try: body except IndexError: pass] *)
Definition try_index (body : W unit) : W unit := fun log =>
  match body log with
  | (log', Raise IndexError) => (log', Ret tt)
  | r => r
  end.

(** [for i in range(10): axs[i].clear(); ...set_xticks([]); ...] and the
    set-up of the information row and of the 3-D view. *)
Fixpoint clear_axes (axes : list nat) : W unit :=
  match axes with
  | [] => mret tt
  | i :: rest =>
      emit (Clear i);; emit (SetXticks i);; emit (SetYticks i);;
      clear_axes rest
  end.

Definition reset_axes : W unit :=
  clear_axes (seq 0 10);;
  emit (FrameOff 9);;
  emit (AxisOff 10);;
  emit (SetXlim 10 (-1.5) 2.5);;
  emit (SetYlim 10 (-0.2) 1.2).

(** The body of [for i in range(9)], for the zone [i]. *)
Definition draw_zone (obj : list Z) (i : nat) : W unit :=
  let index := (i * 4)%nat in
  d1 ← liftW (Py.index obj index);
  (if d1 >? 0 then
     emit (Annotate i (Millimetres d1) 0.5 0.8 "center" None);;
     c1 ← liftW (Py.index obj (index + 1));
     emit (Annotate i (ConfText c1) 0.5 0.6 "center" None)
   else mret tt);;
  d2 ← liftW (Py.index obj (index + 2));
  (if d2 >? 0 then
     emit (Annotate i (Millimetres d2) 0.5 0.4 "center" None);;
     c2 ← liftW (Py.index obj (index + 3));
     emit (Annotate i (IntLabel c2) 0.5 0.2 "center" None)
   else mret tt).

Fixpoint draw_zones (obj : list Z) (zones : list nat) : W unit :=
  match zones with
  | [] => mret tt
  | i :: rest => draw_zone obj i;; draw_zones obj rest
  end.

(** [max_angle_deviation] and the test that turns the text red. *)
Definition max_angle_deviation : R := 15.

Definition text_color (top_angle bottom_angle left_angle right_angle : R)
  : string :=
  if Rgt_dec (top_angle + bottom_angle) max_angle_deviation then "red"
  else if Rgt_dec (left_angle + right_angle) max_angle_deviation then "red"
  else "darkblue".

(** The information row and the 3-D view, from the five selected
    distances. *)
Definition information (id : option string)
    (center top bottom left right : Z) : W unit :=
  top_angle ← liftW (calc_angle (IZR center) (IZR top) angle_zone_up_down);
  bottom_angle ←
    liftW (calc_angle (IZR center) (IZR bottom) angle_zone_up_down);
  left_angle ←
    liftW (calc_angle (IZR center) (IZR left) angle_zone_left_right);
  right_angle ←
    liftW (calc_angle (IZR center) (IZR right) angle_zone_left_right);
  emit (Annotate 9 (IdentityText id) 0.5 0.7 "center" None);;
  emit (Annotate 9 (AnglesText left_angle right_angle top_angle bottom_angle)
          0.5 0.5 "center" None);;
  emit (Annotate 9
          (YawPitchText ((left_angle - right_angle) / 2)
                        ((top_angle - bottom_angle) / 2))
          0.5 0.3 "center"
          (Some (text_color top_angle bottom_angle left_angle right_angle)));;
  emit (Bar3d 10);;
  emit (ViewInit 10 ((top_angle - bottom_angle) / 2)
                    ((right_angle - left_angle) / 2)).

(** [pick_best(obj[z*4:])] *)
Definition zone_best (obj : list Z) (z : nat) : exc Z :=
  Selection.pick_best (Py.slice_from (z * 4) obj).

(** The body of the [try] of [animate]. *)
Definition show_object (id : option string) (obj : list Z) : W unit :=
  draw_zones obj (seq 0 9);;
  center ← liftW (zone_best obj 4);
  top ← liftW (zone_best obj 1);
  bottom ← liftW (zone_best obj 7);
  left ← liftW (zone_best obj 3);
  right ← liftW (zone_best obj 5);
  information id center top bottom left right.

Definition no_device_text : draw :=
  Annotate 9 (Literal "No Device Connected") 0.1 0.5 "left" (Some "red").

(** Everything after the call of the reader: [obj] is its fifth result,
    [id] the global [tof_id] as the reader left it.  An empty list is as
    false as [None]. *)
Definition render (id : option string) (obj : option (list Z)) : W unit :=
  reset_axes;;
  match obj with
  | Some (x :: rest) => try_index (show_object id (x :: rest))
  | _ => emit no_device_text
  end.


(** The calls of [reset_axes], and those of the information row. *)
Definition reset_log : list draw := (reset_axes []).1.


(** A call that writes into a zone cell. *)
Definition zone_text (d : draw) : Prop :=
  match d with
  | Annotate ax _ _ _ _ _ => (ax < 9)%nat
  | _ => False
  end.

(** A statement that only appends to the calls made so far, the same
    calls whatever was made before. *)
Definition framed {A : Type} (m : W A) : Prop :=
  forall log, m log = ((log ++ (m []).1)%list, (m []).2).

End Animate.

(** * Lines that leave the cached identity alone *)

Module ReaderAux.

Import Reader.
Local Open Scope string_scope.

(** The tag of a line: its first field. *)
Definition tag_of (item : string) : string :=
  match Py.split ";" item with
  | tag :: _ => tag
  | [] => ""
  end.

(** A received event none of whose lines is a version record. *)
Definition no_version_line (ev : recv_event) : Prop :=
  match ev with
  | Data s => Forall (fun item => tag_of item <> "#VER") (Py.split crlf s)
  | Timeout => True
  end.

End ReaderAux.

(** * Sample captures *)

Module Samples.

Import Reader.
Local Open Scope Z_scope.
Local Open Scope string_scope.

(** A capture without an object record, and one that ends a cycle. *)
Definition capture_head : string :=
  "#VER;1a2b;3.4;5.6" ++ crlf
  ++ "#HLONG01;1;2;3;4;5;6;7;8;9;10;11;12;13;14;15;16;17;18;19;20;21;22"
  ++ crlf ++ "TMF882X measurement" ++ crlf ++ "#ITT;0;4000" ++ crlf.

Definition object_line : string :=
  "#OBJ;1;25;9;77;"
  ++ "101;51;0;0;102;52;0;0;103;53;0;0;"
  ++ "104;54;0;0;105;55;95;15;106;56;0;0;"
  ++ "107;57;0;0;108;58;0;0;109;59;0;0".

Definition object_payload : list Z :=
  [101; 51; 0; 0; 102; 52; 0; 0; 103; 53; 0; 0;
   104; 54; 0; 0; 105; 55; 95; 15; 106; 56; 0; 0;
   107; 57; 0; 0; 108; 58; 0; 0; 109; 59; 0; 0].

Definition capture_tail : string :=
  "#ITT;0;1" ++ crlf ++ object_line ++ crlf ++ "#ITT;0;2".

(** A column-header line: tagged like an object record, not numeric. *)
Definition header_line : string :=
  "#OBJ;i2c_address;result_number;temperature;valid_results;distance_0".


End Samples.

(** * Properties of the geometry engine *)

Module GeometryFacts.

Import Geometry.
Local Open Scope R_scope.

Lemma radians_range (alpha : R) :
  0 < alpha < 180 -> 0 < radians alpha < PI.
Proof.
  intros [Hlo Hhi]. unfold radians.
  pose proof PI_RGT_0 as Hpi.
  split.
  - apply Rmult_lt_0_compat; lra.
  - replace PI with (180 * (PI / 180)) at 2 by lra.
    apply Rmult_lt_compat_r; lra.
Qed.

Lemma cos_lt_1_open (x : R) : 0 < x < PI -> cos x < 1.
Proof.
  intros [Hlo Hhi]. rewrite <- cos_0.
  apply cos_decreasing_1; lra.
Qed.

Lemma sin_pos_open (x : R) : 0 < x < PI -> 0 < sin x.
Proof. intros [Hlo Hhi]. now apply sin_gt_0. Qed.

Lemma sin_cos_sq (x : R) : sin x * sin x + cos x * cos x = 1.
Proof. pose proof (sin2_cos2 x) as H. unfold Rsqr in H. exact H. Qed.

Lemma side_sq_pos (center edge alpha : R) :
  0 < center -> 0 < edge -> 0 < alpha < 180 ->
  0 < side_sq center edge alpha.
Proof.
  intros Hc He Ha. unfold side_sq.
  pose proof (cos_lt_1_open _ (radians_range _ Ha)) as Hcos.
  assert (0 < center * edge * (1 - cos (radians alpha))).
  { apply Rmult_lt_0_compat; [now apply Rmult_lt_0_compat | lra]. }
  pose proof (Rle_0_sqr (center - edge)) as Hsq. unfold Rsqr in Hsq.
  lra.
Qed.

Lemma side_sq_nonneg (center edge alpha : R) :
  0 <= side_sq center edge alpha.
Proof.
  unfold side_sq.
  pose proof (COS_bound (radians alpha)) as [Hlo Hhi].
  set (k := cos (radians alpha)) in *.
  pose proof (Rle_0_sqr (center - edge)) as Hm. unfold Rsqr in Hm.
  pose proof (Rle_0_sqr (center + edge)) as Hp. unfold Rsqr in Hp.
  destruct (Rle_dec 0 (center * edge)).
  - assert (center * edge * k <= center * edge * 1)
      by (apply Rmult_le_compat_l; lra).
    lra.
  - assert (- (center * edge) * - k <= - (center * edge) * 1)
      by (apply Rmult_le_compat_l; lra).
    lra.
Qed.

Lemma triangle_side_eq (center edge alpha : R) :
  triangle_side center edge alpha = Ret (sqrt (side_sq center edge alpha)).
Proof.
  unfold triangle_side, math_sqrt. fold (side_sq center edge alpha).
  pose proof (side_sq_nonneg center edge alpha).
  destruct (Rlt_dec _ 0); [lra | reflexivity].
Qed.

Lemma sqrt_side_sq (center edge alpha : R) :
  sqrt (side_sq center edge alpha) ^ 2 = side_sq center edge alpha.
Proof.
  simpl. rewrite Rmult_1_r. apply sqrt_sqrt, side_sq_nonneg.
Qed.

(** Law of sines bound: [edge * sin alpha <= a]. *)
Lemma sine_le_side (center edge alpha : R) :
  0 < edge -> 0 < alpha < 180 ->
  edge * sin (radians alpha) <= sqrt (side_sq center edge alpha).
Proof.
  intros He Ha.
  pose proof (sin_pos_open _ (radians_range _ Ha)) as Hsin.
  rewrite <- (sqrt_square (edge * sin (radians alpha)))
    by (apply Rmult_le_pos; lra).
  apply sqrt_le_1_alt. unfold side_sq.
  pose proof (sin_cos_sq (radians alpha)) as Hsc.
  set (s := sin (radians alpha)) in *. set (k := cos (radians alpha)) in *.
  pose proof (Rle_0_sqr (center - edge * k)) as Hsq. unfold Rsqr in Hsq.
  replace (edge * s * (edge * s)) with (edge * edge * (s * s)) by ring.
  replace (s * s) with (1 - k * k) by lra.
  lra.
Qed.


Lemma degrees_radians (x : R) : degrees (radians x) = x.
Proof. unfold degrees, radians. pose proof PI_RGT_0. field. lra. Qed.

Lemma sine_ratio_range (center edge alpha : R) :
  0 < center -> 0 < edge -> 0 < alpha < 180 ->
  0 < edge / sqrt (side_sq center edge alpha) * sin (radians alpha) <= 1.
Proof.
  intros Hc He Ha.
  pose proof (sqrt_lt_R0 _ (side_sq_pos _ _ _ Hc He Ha)) as Hpos.
  pose proof (sin_pos_open _ (radians_range _ Ha)) as Hsin.
  pose proof (sine_le_side center _ _ He Ha) as Hle.
  set (a := sqrt (side_sq center edge alpha)) in *.
  replace (edge / a * sin (radians alpha))
    with (edge * sin (radians alpha) / a) by (field; lra).
  split.
  - apply Rdiv_lt_0_compat; [apply Rmult_lt_0_compat |]; lra.
  - apply (Rmult_le_reg_r a); [lra |].
    replace (edge * sin (radians alpha) / a * a)
      with (edge * sin (radians alpha)) by (field; lra).
    lra.
Qed.

Lemma calc_angle_try_eq (center edge alpha : R) :
  0 < center -> 0 < edge -> 0 < alpha < 180 ->
  calc_angle_try center edge alpha =
  Ret (if Rgt_dec (edge ^ 2) (center ^ 2 + side_sq center edge alpha)
       then - phi_of center edge alpha else phi_of center edge alpha).
Proof.
  intros Hc He Ha. unfold calc_angle_try.
  rewrite triangle_side_eq. cbn [mbind exc_bind].
  pose proof (sqrt_lt_R0 _ (side_sq_pos _ _ _ Hc He Ha)) as Hpos.
  unfold truediv. destruct (Req_dec_T _ 0) as [E | _]; [lra |].
  cbn [mbind exc_bind].
  pose proof (sine_ratio_range _ _ _ Hc He Ha) as [Hlo Hhi].
  unfold math_asin.
  destruct (Rle_dec (-1) _) as [_ | N]; [| lra].
  destruct (Rle_dec _ 1) as [_ | N]; [| lra].
  cbn [mbind exc_bind]. rewrite sqrt_side_sq. reflexivity.
Qed.



(** Equal distances: the triangle is isosceles and the reading is half the
    zone separation. *)
Lemma calc_angle_isosceles (c alpha : R) :
  0 < c -> 0 < alpha < 180 ->
  calc_angle c c alpha = Ret (alpha / 2).
Proof.
  intros Hc Ha. unfold calc_angle.
  rewrite calc_angle_try_eq by assumption.
  pose proof (side_sq_pos _ _ _ Hc Hc Ha) as HS.
  destruct (Rgt_dec _ _) as [G | _]; [lra |].
  f_equal. unfold phi_of.
  pose proof (radians_range _ Ha) as [Hx0 Hx1].
  set (h := radians alpha / 2).
  assert (Hh : 0 < h < PI / 2) by (unfold h; lra).
  assert (Hsh : 0 < sin h) by (apply sin_gt_0; lra).
  assert (Hx : radians alpha = 2 * h) by (unfold h; lra).
  assert (HSeq : side_sq c c alpha = (2 * c * sin h) * (2 * c * sin h)).
  { unfold side_sq. rewrite Hx, cos_2a_sin. ring. }
  rewrite HSeq, sqrt_square
    by (apply Rmult_le_pos; [| lra]; lra).
  rewrite Hx, sin_2a.
  replace (c / (2 * c * sin h) * (2 * sin h * cos h)) with (cos h)
    by (field; lra).
  rewrite <- sin_shift, asin_sin by lra.
  unfold degrees, h, radians. pose proof PI_RGT_0. field. lra.
Qed.

(** A wall perpendicular to the centre direction, where the centre distance
    is the projection of the edge distance, reads as zero. *)
Lemma calc_angle_perpendicular (edge alpha : R) :
  0 < edge -> 0 < alpha < 90 ->
  calc_angle (edge * cos (radians alpha)) edge alpha = Ret 0.
Proof.
  intros He Ha.
  assert (Ha' : 0 < alpha < 180) by lra.
  pose proof (radians_range _ Ha') as [Hx0 Hx1].
  assert (Hx2 : radians alpha < PI / 2).
  { unfold radians. pose proof PI_RGT_0.
    replace (PI / 2) with (90 * (PI / 180)) by lra.
    apply Rmult_lt_compat_r; lra. }
  assert (Hk : 0 < cos (radians alpha)) by (apply cos_gt_0; lra).
  assert (Hs : 0 < sin (radians alpha)) by (apply sin_gt_0; lra).
  assert (Hc : 0 < edge * cos (radians alpha))
    by now apply Rmult_lt_0_compat.
  pose proof (sin_cos_sq (radians alpha)) as Hsc.
  assert (HS : side_sq (edge * cos (radians alpha)) edge alpha
               = (edge * sin (radians alpha)) * (edge * sin (radians alpha))).
  { unfold side_sq.
    set (s := sin (radians alpha)) in *. set (k := cos (radians alpha)) in *.
    replace (edge * s * (edge * s)) with (edge * edge * (s * s)) by ring.
    replace (s * s) with (1 - k * k) by lra. ring. }
  unfold calc_angle. rewrite calc_angle_try_eq by assumption.
  unfold phi_of. rewrite HS, sqrt_square by (apply Rmult_le_pos; lra).
  replace (edge / (edge * sin (radians alpha)) * sin (radians alpha))
    with 1 by (field; lra).
  rewrite asin_1.
  replace (degrees (PI / 2)) with 90
    by (unfold degrees; pose proof PI_RGT_0; field; lra).
  replace (90 - 90) with 0 by ring. rewrite Ropp_0.
  now destruct (Rgt_dec _ _).
Qed.






(** C2: [calc_angle 0 0 alpha] is exactly 0 for every [alpha], and whenever
    the derived side [a] evaluates to zero the division fault is caught and
    the result is 0. *)
Theorem calc_angle_degenerate :
  (forall alpha, calc_angle 0 0 alpha = Ret 0) /\
  (forall center edge alpha,
     triangle_side center edge alpha = Ret 0 ->
     calc_angle center edge alpha = Ret 0).
Proof.
  assert (Hgen : forall center edge alpha,
             triangle_side center edge alpha = Ret 0 ->
             calc_angle center edge alpha = Ret 0).
  { intros center edge alpha Hside.
    unfold calc_angle, calc_angle_try. rewrite Hside.
    cbn [mbind exc_bind]. unfold truediv.
    destruct (Req_dec_T 0 0) as [_ | N]; [reflexivity | contradiction]. }
  split; [| exact Hgen].
  intros alpha. apply Hgen.
  rewrite triangle_side_eq. unfold side_sq.
  replace (0 ^ 2 + 0 ^ 2 - 2 * 0 * 0 * cos (radians alpha)) with 0 by ring.
  now rewrite sqrt_0.
Qed.

Lemma calc_angle_degenerate_witness :
  triangle_side 5 5 0 = Ret 0 /\ calc_angle 5 5 0 = Ret 0.
Proof.
  assert (H : triangle_side 5 5 0 = Ret 0).
  { rewrite triangle_side_eq. unfold side_sq, radians.
    rewrite Rmult_0_l, cos_0.
    replace (5 ^ 2 + 5 ^ 2 - 2 * 5 * 5 * 1) with 0 by ring.
    now rewrite sqrt_0. }
  split; [exact H | exact (proj2 calc_angle_degenerate 5 5 0 H)].
Defined.

(** C6, as the code has it: for center = edge = 1000 and alpha = 11 degrees
    the result is alpha / 2 = 5.5 degrees. *)
Theorem calc_angle_worked_example :
  calc_angle 1000 1000 11 = Ret (11 / 2).
Proof. apply calc_angle_isosceles; lra. Qed.

(** C6 as stated fails: the worked example is not within one degree of
    zero. *)
Lemma calc_angle_worked_example_not_zero :
  ~ near_zero 1 (calc_angle 1000 1000 11).
Proof.
  rewrite calc_angle_isosceles by lra. unfold near_zero.
  rewrite Rabs_pos_eq by lra. lra.
Qed.






End GeometryFacts.

(** * Properties of the selection policy and of the protocol reader *)

Module ReaderFacts.

Import Reader Samples.
Local Open Scope Z_scope.
Local Open Scope string_scope.

(** ** Sequencing *)

Lemma seq_skip_l (m k : M unit) (st : state) :
  m st = (st, Next tt) -> (m;; k) st = k st.
Proof. intros H. unfold mbind, M_bind. now rewrite H. Qed.

Lemma seq_skip_r (m k : M unit) (st : state) :
  (forall st', k st' = (st', Next tt)) -> (m;; k) st = m st.
Proof.
  intros H. unfold mbind, M_bind.
  destruct (m st) as [st' [[] | r | e]]; auto.
Qed.

(** ** Splitting *)

Lemma split_go_cons (sep : string) (skip : nat) (s : string) :
  exists w ws, Py.split_go sep skip s = w :: ws.
Proof.
  revert skip. induction s as [| c rest IH]; intros skip;
    cbn [Py.split_go].
  - eauto.
  - destruct skip as [| k]; [| apply IH].
    destruct (String.prefix sep (String c rest)); [eauto |].
    destruct (IH 0%nat) as (w & ws & ->). eauto.
Qed.

Lemma split_cons (sep s : string) :
  exists tag fields, Py.split sep s = tag :: fields.
Proof. apply split_go_cons. Qed.

(** ** One line: which statement acts *)

Lemma on_ver_other (tag : string) (fields : list string) (st : state) :
  String.eqb tag "#VER" = false ->
  on_ver (tag :: fields) st = (st, Next tt).
Proof. intros H. unfold on_ver, mbind, M_bind. cbn. now rewrite H. Qed.

Lemma on_hlong_other (tag : string) (fields : list string) (st : state) :
  String.eqb (substring 0 6 tag) "#HLONG" = false ->
  on_hlong (tag :: fields) st = (st, Next tt).
Proof. intros H. unfold on_hlong, mbind, M_bind. cbn. now rewrite H. Qed.

Lemma on_obj_other (tag : string) (fields : list string) (st : state) :
  String.eqb tag "#OBJ" = false ->
  on_obj (tag :: fields) st = (st, Next tt).
Proof. intros H. unfold on_obj, mbind, M_bind. cbn. now rewrite H. Qed.

Lemma on_itt_other (tag : string) (fields : list string) (st : state) :
  String.eqb tag "#ITT" = false ->
  on_itt (tag :: fields) st = (st, Next tt).
Proof. intros H. unfold on_itt, mbind, M_bind. cbn. now rewrite H. Qed.

(** The four [if] statements have exclusive guards: at most one acts. *)
Lemma process_item_dispatch (item tag : string) (fields : list string)
    (st : state) :
  Py.split ";" item = tag :: fields ->
  process_item item st =
  if String.eqb tag "#VER" then on_ver (tag :: fields) st
  else if String.eqb (substring 0 6 tag) "#HLONG"
       then on_hlong (tag :: fields) st
  else if String.eqb tag "#OBJ" then on_obj (tag :: fields) st
  else if String.eqb tag "#ITT" then on_itt (tag :: fields) st
  else (st, Next tt).
Proof.
  intros Hsplit. unfold process_item. rewrite Hsplit.
  destruct (String.eqb_spec tag "#VER") as [-> | Hver].
  { apply seq_skip_r. intros st'.
    rewrite seq_skip_l by now apply on_hlong_other.
    rewrite seq_skip_l by now apply on_obj_other.
    now apply on_itt_other. }
  rewrite seq_skip_l by (apply on_ver_other; now apply String.eqb_neq).
  destruct (String.eqb (substring 0 6 tag) "#HLONG") eqn:Hhl.
  { assert (String.eqb tag "#OBJ" = false) as Hobj.
    { apply String.eqb_neq. intros ->. discriminate Hhl. }
    assert (String.eqb tag "#ITT" = false) as Hitt.
    { apply String.eqb_neq. intros ->. discriminate Hhl. }
    apply seq_skip_r. intros st'.
    rewrite seq_skip_l by now apply on_obj_other.
    now apply on_itt_other. }
  rewrite seq_skip_l by now apply on_hlong_other.
  destruct (String.eqb_spec tag "#OBJ") as [-> | Hobj].
  { apply seq_skip_r. intros st'. now apply on_itt_other. }
  rewrite seq_skip_l by (apply on_obj_other; now apply String.eqb_neq).
  destruct (String.eqb tag "#ITT") eqn:Hitt; [reflexivity |].
  now apply on_itt_other.
Qed.

(** ** Built-ins *)

Lemma parse_int_char (c : ascii) :
  Py.parse_int (String c EmptyString) = Py.digit_of c.
Proof. destruct c as [[] [] [] [] [] [] [] []]; reflexivity. Qed.

Lemma digit_of_range (c : ascii) (d : Z) :
  Py.digit_of c = Some d -> 0 <= d <= 9.
Proof.
  destruct c as [[] [] [] [] [] [] [] []]; vm_compute;
    intros H; try discriminate H; injection H as <-; split; discriminate.
Qed.

Lemma ints_parse (l : list string) :
  Py.ints l = match mapM Py.parse_int l with
              | Some zs => Ret zs
              | None => Raise ValueError
              end.
Proof.
  unfold Py.ints. induction l as [| x l IH]; [reflexivity |].
  change (mapM Py.int (x :: l))
    with (y ← Py.int x; k ← mapM Py.int l; mret (y :: k)).
  change (mapM Py.parse_int (x :: l))
    with (y ← Py.parse_int x; k ← mapM Py.parse_int l; mret (y :: k)).
  rewrite IH. unfold Py.int.
  destruct (Py.parse_int x); [| reflexivity].
  now destruct (mapM Py.parse_int l).
Qed.

Lemma setitem_in_range {A : Type} (l : list A) (i : Z) (v : A) :
  0 <= i < Z.of_nat (length l) ->
  Py.setitem l i v = Ret (<[Z.to_nat i := v]> l).
Proof.
  intros [Hlo Hhi]. unfold Py.setitem.
  destruct (Z.leb_spec 0 i); [| lia].
  destruct (Z.ltb_spec i (Z.of_nat (length l))); [reflexivity | lia].
Qed.

(** ** The statements of the loop body, one by one *)

Ltac run_M :=
  unfold mbind, M_bind, lift, get, put, return_, mret, M_ret; cbn.

Lemma on_ver_flow (data : list string) (st : state) :
  ten_slots st ->
  (exists st', on_ver data st = (st', Next tt) /\ ten_slots st') \/
  (exists e, on_ver data st = (st, Throw e) /\ handled e = true).
Proof.
  intros Hwf. unfold on_ver, Py.index.
  destruct data as [| tag fields]; run_M; [right; eauto |].
  destruct (String.eqb tag "#VER"); [| left; eauto].
  destruct (fields !! 0%nat); run_M; [| right; eauto].
  destruct (fields !! 1%nat); run_M; [| right; eauto].
  destruct (fields !! 2%nat); run_M; [| right; eauto].
  left. eexists. split; [reflexivity | exact Hwf].
Qed.

Lemma on_itt_flow (data : list string) (st : state) :
  ten_slots st ->
  (exists st', on_itt data st = (st', Next tt) /\ ten_slots st') \/
  (exists e, on_itt data st = (st, Throw e) /\ handled e = true).
Proof.
  intros Hwf. unfold on_itt, Py.index.
  destruct data as [| tag fields]; run_M; [right; eauto |].
  destruct (String.eqb tag "#ITT"); [| left; eauto].
  destruct (fields !! 1%nat); run_M; [| right; eauto].
  unfold Py.int. destruct (Py.parse_int s); run_M; [| right; eauto].
  left. eexists. split; [reflexivity | exact Hwf].
Qed.

(** The histogram statement, step by step, on a state with ten slots. *)
Lemma on_hlong_unfold (tag : string) (fields : list string) (st : state) :
  ten_slots st ->
  String.eqb (substring 0 6 tag) "#HLONG" = true ->
  on_hlong (tag :: fields) st =
  match String.get 7 tag with
  | None => (st, Throw IndexError)
  | Some c =>
      match Py.digit_of c with
      | None => (st, Throw ValueError)
      | Some d =>
          match mapM Py.parse_int fields with
          | None => (st, Throw ValueError)
          | Some pt_hist =>
              match Py.slice 5 20 pt_hist with
              | [] => (st, Throw ValueError)
              | x :: rest =>
                  ({| xtalk := <[Z.to_nat d := foldl Z.max x rest]> (xtalk st);
                      background :=
                        <[Z.to_nat d :=
                            Py.truediv_int (Py.sum (Py.slice 0 8 pt_hist)) 8]>
                          (background st);
                      iterations := iterations st;
                      tof_id := tof_id st |}, Next tt)
              end
          end
      end
  end.
Proof.
  intros [Hx Hb] Htag. unfold on_hlong. run_M. rewrite Htag.
  unfold Py.str_index. destruct (String.get 7 tag) as [c |]; [| reflexivity].
  cbn. unfold Py.int. rewrite parse_int_char.
  destruct (Py.digit_of c) as [d |] eqn:Hd; [| reflexivity].
  apply digit_of_range in Hd. cbn.
  unfold Py.slice_from. cbn [skipn]. rewrite ?drop_0, ints_parse.
  destruct (mapM Py.parse_int fields) as [pt_hist |]; [| reflexivity].
  unfold Py.slice. cbn.
  destruct (take 15 (drop 5 pt_hist)) as [| x rest]; [reflexivity |].
  cbn. rewrite setitem_in_range by lia. cbn.
  rewrite setitem_in_range by lia. reflexivity.
Qed.

Lemma on_hlong_flow (data : list string) (st : state) :
  ten_slots st ->
  (exists st', on_hlong data st = (st', Next tt) /\ ten_slots st') \/
  (exists e, on_hlong data st = (st, Throw e) /\ handled e = true).
Proof.
  intros Hwf. destruct data as [| tag fields].
  { right. exists IndexError. split; reflexivity. }
  destruct (String.eqb (substring 0 6 tag) "#HLONG") eqn:Htag.
  2: { left. exists st. split; [now apply on_hlong_other | exact Hwf]. }
  rewrite on_hlong_unfold by assumption.
  destruct (String.get 7 tag); [| right; eauto].
  destruct (Py.digit_of a); [| right; eauto].
  destruct (mapM Py.parse_int fields); [| right; eauto].
  destruct (Py.slice 5 20 l); [right; eauto |].
  left. eexists. split; [reflexivity |].
  destruct Hwf as [Hx Hb]. split; cbn; now rewrite length_insert.
Qed.

(** The object statement: it returns exactly on a terminating record. *)
Lemma on_obj_unfold (fields : list string) (st : state) :
  on_obj ("#OBJ" :: fields) st =
  match mapM Py.parse_int (drop 4 fields) with
  | Some obj => (st, Return (snapshot_of st obj))
  | None => (st, Throw ValueError)
  end.
Proof.
  unfold on_obj. run_M. unfold Py.slice_from. cbn [skipn].
  rewrite ints_parse.
  now destruct (mapM Py.parse_int (drop 4 fields)).
Qed.

(** ** One line *)

Lemma terminating_record_split (item tag : string) (fields : list string) :
  Py.split ";" item = tag :: fields ->
  terminating_record item = true <->
  tag = "#OBJ" /\ is_Some (mapM Py.parse_int (drop 4 fields)).
Proof.
  intros Hsplit. unfold terminating_record. rewrite Hsplit.
  rewrite andb_true_iff, String.eqb_eq, bool_decide_eq_true. tauto.
Qed.

Lemma process_item_terminating (item : string) (st : state) :
  terminating_record item = true ->
  exists obj,
    mapM Py.parse_int (drop 5 (Py.split ";" item)) = Some obj /\
    process_item item st = (st, Return (snapshot_of st obj)).
Proof.
  intros Hterm. destruct (split_cons ";" item) as (tag & fields & Hsplit).
  apply (terminating_record_split _ _ _ Hsplit) in Hterm.
  destruct Hterm as [Htag [obj Hobj]]. subst tag.
  exists obj. rewrite Hsplit. split; [exact Hobj |].
  rewrite (process_item_dispatch _ _ _ _ Hsplit). cbn.
  rewrite on_obj_unfold. now rewrite Hobj.
Qed.

Lemma process_item_quiet (item : string) (st : state) :
  ten_slots st -> terminating_record item = false ->
  (exists st', process_item item st = (st', Next tt) /\ ten_slots st') \/
  (exists e, process_item item st = (st, Throw e) /\ handled e = true).
Proof.
  intros Hwf Hterm. destruct (split_cons ";" item) as (tag & fields & Hsplit).
  rewrite (process_item_dispatch _ _ _ _ Hsplit).
  destruct (String.eqb tag "#VER"); [now apply on_ver_flow |].
  destruct (String.eqb (substring 0 6 tag) "#HLONG");
    [now apply on_hlong_flow |].
  destruct (String.eqb_spec tag "#OBJ") as [-> | _].
  { rewrite on_obj_unfold.
    destruct (mapM Py.parse_int (drop 4 fields)) as [obj |] eqn:Hobj.
    - exfalso. apply not_true_iff_false in Hterm. apply Hterm.
      apply (terminating_record_split _ _ _ Hsplit). rewrite Hobj. eauto.
    - right. eauto. }
  destruct (String.eqb tag "#ITT"); [now apply on_itt_flow |].
  left. eauto.
Qed.

(** Every way a line can end, on a state with ten slots. *)
Lemma process_item_flow (item : string) (st : state) :
  ten_slots st ->
  (exists st', process_item item st = (st', Next tt) /\ ten_slots st') \/
  (exists e, process_item item st = (st, Throw e) /\ handled e = true) \/
  (exists obj, process_item item st = (st, Return (snapshot_of st obj))).
Proof.
  intros Hwf. destruct (terminating_record item) eqn:Hterm.
  - destruct (process_item_terminating item st Hterm) as (obj & _ & H).
    eauto.
  - destruct (process_item_quiet item st Hwf Hterm) as [H | H]; eauto.
Qed.


(** ** The loops *)





Lemma initial_ten_slots (id : option string) : ten_slots (initial id).
Proof. split; reflexivity. Qed.

(** ** The histogram windows *)



(** ** The claims *)

Lemma pick_best_four (d1 c1 d2 c2 : Z) (rest : list Z) :
  Selection.pick_best (d1 :: c1 :: d2 :: c2 :: rest)
  = Ret (if c1 >? c2 then d1 else d2).
Proof. unfold Selection.pick_best. cbn. now destruct (c1 >? c2). Qed.

(** C3, at the input where the code departs from it: with equal
    confidences [pick_best] returns the second reading, not the primary. *)
Theorem pick_best_tie_returns_second :
  Selection.pick_best [10; 50; 90; 50] = Ret 90.
Proof. reflexivity. Qed.







(** C8: a line whose processing raises [ValueError] or [IndexError] (a
    failed integer conversion, a missing field) is skipped: the exception is
    caught, nothing has been updated, and the loop goes on with the lines
    that follow. *)
Theorem malformed_line_skipped (item : string) (rest : list string)
    (st st' : state) (e : exn) :
  ten_slots st ->
  process_item item st = (st', Throw e) ->
  handled e = true ->
  st' = st
  /\ try_pass (process_item item) st = (st, Next tt)
  /\ for_entries (item :: rest) st = for_entries rest st.
Proof.
  intros Hwf Hthrow Hhandled.
  assert (Hst : st' = st).
  { destruct (process_item_flow item st Hwf)
      as [(st1 & H & _) | [(e1 & H & _) | (obj & H)]];
      rewrite H in Hthrow; congruence. }
  subst st'.
  assert (Htry : try_pass (process_item item) st = (st, Next tt)).
  { unfold try_pass. now rewrite Hthrow, Hhandled. }
  repeat split; [exact Htry |].
  cbn [for_entries]. unfold mbind, M_bind. now rewrite Htry.
Qed.

Lemma malformed_line_skipped_witness :
  ten_slots (initial None)
  /\ process_item header_line (initial None)
     = (initial None, Throw ValueError)
  /\ for_entries [header_line; "#ITT;0;4000"] (initial None)
     = for_entries ["#ITT;0;4000"] (initial None).
Proof.
  assert (H : process_item header_line (initial None)
              = (initial None, Throw ValueError))
    by (vm_compute; reflexivity).
  split; [apply initial_ten_slots |]. split; [exact H |].
  exact (proj2 (proj2 (malformed_line_skipped header_line ["#ITT;0;4000"]
                         (initial None) (initial None) ValueError
                         (initial_ten_slots None) H eq_refl))).
Defined.



End ReaderFacts.

(** * Further properties of the geometry engine *)

Module GeometryExtras.

Import Geometry GeometryFacts.
Local Open Scope R_scope.






















End GeometryExtras.

(** * Further properties of the protocol reader *)

Module ReaderExtras.

Import Reader ReaderAux Samples ReaderFacts.
Local Open Scope Z_scope.
Local Open Scope string_scope.

(** ** The shape of every result *)

Lemma try_item_shape (item : string) (st : state) :
  ten_slots st ->
  (exists st', try_pass (process_item item) st = (st', Next tt)
               /\ ten_slots st') \/
  (exists obj, try_pass (process_item item) st
               = (st, Return (snapshot_of st obj))).
Proof.
  intros Hwf. unfold try_pass.
  destruct (process_item_flow item st Hwf)
    as [(st' & -> & Hwf') | [(e & -> & ->) | (obj & ->)]]; eauto.
Qed.

Lemma for_entries_shape (lines : list string) (st : state) :
  ten_slots st ->
  exists st', ten_slots st' /\
    (for_entries lines st = (st', Next tt) \/
     exists obj, for_entries lines st = (st', Return (snapshot_of st' obj))).
Proof.
  revert st. induction lines as [| item lines IH]; intros st Hwf.
  - exists st. split; [exact Hwf | left; reflexivity].
  - cbn [for_entries]. unfold mbind, M_bind.
    destruct (try_item_shape item st Hwf) as [(st1 & -> & Hwf1) | (obj & ->)].
    + apply IH, Hwf1.
    + exists st. split; [exact Hwf | right; eauto].
Qed.

Lemma recv_loop_shape (events later : list recv_event) (st st' : state)
    (r : exc snapshot) :
  ten_slots st ->
  recv_loop events st = Some (later, st', r) ->
  ten_slots st' /\
  ((r = Ret no_device /\ tof_id st' = Some "") \/
   exists obj, r = Ret (snapshot_of st' obj)).
Proof.
  revert st. induction events as [| ev events IH]; intros st Hwf Hloop.
  - discriminate Hloop.
  - destruct ev as [s |]; cbn [recv_loop] in Hloop.
    + destruct (for_entries_shape (Py.split crlf s) st Hwf)
        as (st1 & Hwf1 & [Hrun | (obj & Hrun)]); rewrite Hrun in Hloop.
      * now apply (IH st1).
      * injection Hloop as <- <- <-. split; [exact Hwf1 | right; eauto].
    + injection Hloop as <- <- <-. split; [exact Hwf | left; auto].
Qed.

Lemma get_data_shape (sock sock' : socket) (id id' : option string)
    (r : exc snapshot) :
  get_data_from_EVM_GUI sock id = Some (sock', id', r) ->
  exists st, ten_slots st /\ id' = tof_id st /\
    ((r = Ret no_device /\ id' = Some "") \/
     exists obj, r = Ret (snapshot_of st obj)).
Proof.
  unfold get_data_from_EVM_GUI. intros H.
  destruct (recv_loop _ _) as [[[later st] r0] |] eqn:Hloop;
    [| discriminate H].
  injection H as <- <- <-.
  destruct (recv_loop_shape _ _ _ _ _ (initial_ten_slots id) Hloop)
    as [Hwf Hr].
  exists st. split; [exact Hwf |]. split; [reflexivity |].
  destruct Hr as [[-> Hid] | (obj & ->)]; eauto.
Qed.



(** X8: the returned tuple has one of two shapes: the "no device" tuple,
    with the cached identity cleared, or a tuple whose crosstalk and
    background tables have exactly ten entries each, whose description is
    made of these two tables, and whose object payload is a list. *)
Theorem reader_result_shape (sock sock' : socket) (id id' : option string)
    (snap : snapshot) :
  get_data_from_EVM_GUI sock id = Some (sock', id', Ret snap) ->
  (snap = no_device /\ id' = Some "") \/
  (exists xt bg obj,
     description_of snap = XTalkBG xt bg /\
     xtalk_of snap = AList xt /\ background_of snap = AList bg /\
     length xt = 10%nat /\ length bg = 10%nat /\
     obj_of snap = Some obj).
Proof.
  intros H. destruct (get_data_shape _ _ _ _ _ H)
    as (st & [Hx Hb] & _ & [[Hr Hid] | (obj & Hr)]).
  - left. split; [congruence | exact Hid].
  - right. injection Hr as ->.
    exists (xtalk st), (background st), obj. repeat split; assumption.
Qed.

Lemma reader_result_shape_witness :
  (no_device = no_device /\ Some "" = Some "") \/
  (exists xt bg obj,
     description_of no_device = XTalkBG xt bg /\
     xtalk_of no_device = AList xt /\ background_of no_device = AList bg /\
     length xt = 10%nat /\ length bg = 10%nat /\
     obj_of no_device = Some obj).
Proof.
  refine (reader_result_shape
            {| sent := []; pending := [Data capture_head; Timeout] |}
            {| sent := ["(m0)"]; pending := [] |}
            None (Some "") no_device _).
  vm_compute. reflexivity.
Defined.

(** ** The cached identity *)

Lemma process_item_keeps_id (item : string) (st : state) :
  ten_slots st -> tag_of item <> "#VER" ->
  tof_id (process_item item st).1 = tof_id st.
Proof.
  intros Hwf Htag. unfold tag_of in Htag.
  destruct (split_cons ";" item) as (tag & fields & Hsplit).
  rewrite Hsplit in Htag.
  rewrite (process_item_dispatch _ _ _ _ Hsplit).
  destruct (String.eqb_spec tag "#VER") as [E | _]; [contradiction |].
  destruct (String.eqb (substring 0 6 tag) "#HLONG") eqn:Hhl.
  { rewrite on_hlong_unfold by assumption.
    destruct (String.get 7 tag); [| reflexivity].
    destruct (Py.digit_of a); [| reflexivity].
    destruct (mapM Py.parse_int fields); [| reflexivity].
    destruct (Py.slice 5 20 l); reflexivity. }
  destruct (String.eqb_spec tag "#OBJ") as [-> | _].
  { rewrite on_obj_unfold.
    destruct (mapM Py.parse_int (drop 4 fields)); reflexivity. }
  destruct (String.eqb tag "#ITT") eqn:Hitt; [| reflexivity].
  unfold on_itt, Py.index, mbind, M_bind, lift, get, put. cbn.
  rewrite Hitt.
  destruct (fields !! 1%nat) as [d2 |]; cbn; [| reflexivity].
  unfold Py.int. destruct (Py.parse_int d2); reflexivity.
Qed.

Lemma for_entries_keeps_id (lines : list string) (st : state) :
  ten_slots st ->
  Forall (fun item => tag_of item <> "#VER") lines ->
  tof_id (for_entries lines st).1 = tof_id st.
Proof.
  intros Hwf Hall. revert st Hwf.
  induction Hall as [| item lines Htag _ IH]; intros st Hwf; [reflexivity |].
  cbn [for_entries]. unfold mbind, M_bind, try_pass.
  pose proof (process_item_keeps_id item st Hwf Htag) as Hid.
  destruct (process_item_flow item st Hwf)
    as [(st' & H & Hwf') | [(e & H & He) | (obj & H)]];
    rewrite H in *; cbn [fst] in Hid.
  - rewrite IH by assumption. exact Hid.
  - rewrite He. now apply IH.
  - reflexivity.
Qed.

Lemma recv_loop_keeps_id (events later : list recv_event) (st st' : state)
    (r : exc snapshot) :
  ten_slots st -> Forall no_version_line events ->
  recv_loop events st = Some (later, st', r) ->
  tof_id st' = tof_id st \/ (r = Ret no_device /\ tof_id st' = Some "").
Proof.
  intros Hwf Hall. revert st Hwf.
  induction Hall as [| ev events Hev _ IH]; intros st Hwf Hloop.
  - discriminate Hloop.
  - destruct ev as [s |]; cbn [recv_loop] in Hloop.
    + cbn in Hev.
      pose proof (for_entries_keeps_id _ st Hwf Hev) as Hid.
      destruct (for_entries_shape (Py.split crlf s) st Hwf)
        as (st1 & Hwf1 & [Hrun | (obj & Hrun)]);
        rewrite Hrun in *; cbn [fst] in Hid.
      * rewrite <- Hid. now apply IH.
      * injection Hloop as <- <- <-. now left.
    + injection Hloop as <- <- <-. right. split; reflexivity.
Qed.

(** X9: when no version record is received, the cached identity goes
    through the cycle unchanged, unless the cycle ends by a time-out, which
    clears it. *)
Theorem identity_survives_cycle (sock sock' : socket)
    (id id' : option string) (r : exc snapshot) :
  Forall no_version_line (pending sock) ->
  get_data_from_EVM_GUI sock id = Some (sock', id', r) ->
  id' = id \/ (r = Ret no_device /\ id' = Some "").
Proof.
  unfold get_data_from_EVM_GUI. cbn [sendall pending]. intros Hall H.
  destruct (recv_loop _ _) as [[[later st] r0] |] eqn:Hloop;
    [| discriminate H].
  injection H as <- <- <-.
  exact (recv_loop_keeps_id _ _ _ _ _ (initial_ten_slots id) Hall Hloop).
Qed.

Lemma no_version_check (events : list recv_event) :
  forallb (fun ev =>
             match ev with
             | Data s =>
                 forallb (fun item => negb (String.eqb (tag_of item) "#VER"))
                         (Py.split crlf s)
             | Timeout => true
             end) events = true ->
  Forall no_version_line events.
Proof.
  induction events as [| ev events IH]; cbn [forallb]; [constructor |].
  rewrite andb_true_iff. intros [H1 H2]. constructor; [| auto].
  destruct ev as [s |]; [| exact I]. cbn.
  induction (Py.split crlf s) as [| item l IHl]; [constructor |].
  cbn [forallb] in H1. apply andb_true_iff in H1 as [Ha Hb].
  constructor; [| auto].
  apply negb_true_iff in Ha. now apply String.eqb_neq.
Defined.

Lemma identity_survives_cycle_witness :
  Some "TMF882X ID 9 - App 1 - Drv 2" = Some "TMF882X ID 9 - App 1 - Drv 2"
  \/ (Ret (snapshot_of (run_lines ["#ITT;0;1"] (initial None))
                        object_payload) = Ret no_device
      /\ Some "TMF882X ID 9 - App 1 - Drv 2" = Some "").
Proof.
  refine (identity_survives_cycle
            {| sent := []; pending := [Data capture_tail; Timeout] |}
            {| sent := ["(m0)"]; pending := [Timeout] |}
            (Some "TMF882X ID 9 - App 1 - Drv 2")
            (Some "TMF882X ID 9 - App 1 - Drv 2")
            (Ret (snapshot_of (run_lines ["#ITT;0;1"] (initial None))
                              object_payload)) _ _).
  - apply no_version_check. vm_compute. reflexivity.
  - vm_compute. reflexivity.
Defined.

(** X10: a histogram record with at most five bins is skipped: the
    crosstalk window is empty, [max] raises [ValueError], the handler
    swallows it and neither table changes. *)
Theorem short_histogram_skipped (item tag : string) (fields : list string)
    (c : ascii) (d : Z) (pt_hist : list Z) (st : state) :
  ten_slots st ->
  Py.split ";" item = tag :: fields ->
  substring 0 6 tag = "#HLONG" ->
  String.get 7 tag = Some c -> Py.digit_of c = Some d ->
  Forall2 (fun field z => Py.parse_int field = Some z) fields pt_hist ->
  (length pt_hist <= 5)%nat ->
  process_item item st = (st, Throw ValueError)
  /\ try_pass (process_item item) st = (st, Next tt).
Proof.
  intros Hwf Hsplit Htag Hc Hd Hparse Hlen.
  assert (Htagb : String.eqb (substring 0 6 tag) "#HLONG" = true)
    by now apply String.eqb_eq.
  assert (Hver : String.eqb tag "#VER" = false).
  { apply String.eqb_neq. intros ->. discriminate Htag. }
  assert (H : process_item item st = (st, Throw ValueError)).
  { rewrite (process_item_dispatch _ _ _ _ Hsplit), Hver, Htagb.
    rewrite on_hlong_unfold, Hc, Hd, (mapM_Some_2 _ _ _ Hparse)
      by assumption.
    unfold Py.slice. rewrite drop_ge by lia. reflexivity. }
  split; [exact H |]. unfold try_pass. now rewrite H.
Qed.

Lemma short_histogram_skipped_witness :
  process_item "#HLONG03;7;8;9" (initial None)
  = (initial None, Throw ValueError)
  /\ try_pass (process_item "#HLONG03;7;8;9") (initial None)
     = (initial None, Next tt).
Proof.
  refine (short_histogram_skipped "#HLONG03;7;8;9" "#HLONG03"
            ["7"; "8"; "9"] "3" 3 [7; 8; 9] (initial None) _ _ _ _ _ _ _).
  - apply initial_ten_slots.
  - vm_compute. reflexivity.
  - reflexivity.
  - reflexivity.
  - reflexivity.
  - repeat constructor.
  - cbn. lia.
Defined.

(** ** Object records of any length *)




End ReaderExtras.

(** * Properties of the animation callback *)

Module AnimateFacts.

Import Geometry Reader Animate GeometryFacts ReaderFacts GeometryExtras
  ReaderExtras.
Local Open Scope Z_scope.
Local Open Scope string_scope.

(** ** Statements only append to the calls made so far *)

Lemma framed_ret {A : Type} (a : A) : framed (mret a : W A).
Proof. intros log. cbn. now rewrite app_nil_r. Qed.

Lemma framed_emit (d : draw) : framed (emit d).
Proof. intros log. reflexivity. Qed.

Lemma framed_lift {A : Type} (x : exc A) : framed (liftW x).
Proof. intros log. cbn. now rewrite app_nil_r. Qed.

Lemma framed_bind {A B : Type} (m : W A) (k : A -> W B) :
  framed m -> (forall a, framed (k a)) -> framed (m ≫= k).
Proof.
  intros Hm Hk log. unfold mbind, W_bind. rewrite (Hm log).
  destruct (m []) as [out [a | e]]; cbn [fst snd]; [| reflexivity].
  rewrite (Hk a (log ++ out)%list), (Hk a out). cbn [fst snd].
  now rewrite app_assoc.
Qed.

Lemma framed_try (m : W unit) : framed m -> framed (try_index m).
Proof.
  intros Hm log. unfold try_index. rewrite (Hm log).
  destruct (m []) as [out [[] | []]]; reflexivity.
Qed.

Lemma framed_run {A : Type} (m : W A) (log out : list draw) (r : exc A) :
  framed m -> m [] = (out, r) -> m log = ((log ++ out)%list, r).
Proof. intros Hm H. rewrite (Hm log), H. reflexivity. Qed.

Lemma bind_run {A B : Type} (m : W A) (k : A -> W B) (out : list draw)
    (a : A) :
  m [] = (out, Ret a) -> (m ≫= k) [] = k a out.
Proof. intros H. unfold mbind, W_bind. now rewrite H. Qed.

Lemma bind_raise {A B : Type} (m : W A) (k : A -> W B) (out : list draw)
    (e : exn) :
  m [] = (out, Raise e) -> (m ≫= k) [] = (out, Raise e).
Proof. intros H. unfold mbind, W_bind. now rewrite H. Qed.

Ltac framing :=
  repeat first
    [ apply framed_emit | apply framed_lift | apply framed_ret
    | apply framed_try | assumption
    | apply framed_bind; [| intros ?]
    | match goal with |- framed (if ?b then _ else _) => destruct b end ].

Lemma framed_clear_axes (axes : list nat) : framed (clear_axes axes).
Proof. induction axes as [| i rest IH]; cbn [clear_axes]; framing. Qed.

Lemma framed_reset_axes : framed reset_axes.
Proof. unfold reset_axes. framing. Qed.

Lemma framed_draw_zone (obj : list Z) (i : nat) : framed (draw_zone obj i).
Proof. unfold draw_zone. framing. Qed.

Lemma framed_draw_zones (obj : list Z) (zones : list nat) :
  framed (draw_zones obj zones).
Proof.
  induction zones as [| i rest IH]; cbn [draw_zones]; framing.
Qed.

Lemma framed_information (id : option string) (c t b l r : Z) :
  framed (information id c t b l r).
Proof. unfold information. framing. Qed.

Lemma framed_show_object (id : option string) (obj : list Z) :
  framed (show_object id obj).
Proof.
  unfold show_object. framing;
    try first [apply framed_draw_zones | apply framed_information].
Qed.

(** ** The zone cells *)

Ltac zone_texts H :=
  repeat (apply List.Forall_cons; [exact H |]); apply List.Forall_nil.

Lemma draw_zone_cases (obj : list Z) (i : nat) :
  (i < 9)%nat ->
  exists out r,
    draw_zone obj i [] = (out, r) /\ Forall zone_text out /\
    (r = Ret tt \/ r = Raise IndexError) /\
    ((i * 4 + 3 < length obj)%nat -> r = Ret tt) /\
    ((length obj <= i * 4 + 2)%nat -> r = Raise IndexError).
Proof.
  intros Hi. unfold draw_zone, Py.index, mbind, W_bind, liftW, emit.
  destruct (obj !! (i * 4)%nat) as [d1 |] eqn:H0; cbn.
  2: { apply lookup_ge_None in H0. do 2 eexists.
       split; [reflexivity |]. split; [constructor |].
       split; [now right |]. split; [intros; lia | reflexivity]. }
  destruct (obj !! (i * 4 + 2)%nat) as [d2 |] eqn:H2.
  2: { apply lookup_ge_None in H2.
       destruct (d1 >? 0); cbn;
         [destruct (obj !! (i * 4 + 1)%nat) as [c1 |]; cbn |];
         (do 2 eexists; split; [reflexivity |];
          split; [zone_texts Hi |];
          split; [now right |]; split; [intros; lia | reflexivity]). }
  apply lookup_lt_Some in H2 as Hlen2.
  destruct (d1 >? 0); cbn.
  - destruct (obj !! (i * 4 + 1)%nat) as [c1 |] eqn:H1; cbn.
    2: { apply lookup_ge_None in H1. lia. }
    destruct (d2 >? 0); cbn.
    + destruct (obj !! (i * 4 + 3)%nat) as [c2 |] eqn:H3; cbn;
        [| apply lookup_ge_None in H3];
        (do 2 eexists; split; [reflexivity |];
         split; [zone_texts Hi |]).
      * split; [now left |]. split; [reflexivity | intros; lia].
      * split; [now right |]. split; [intros; lia | reflexivity].
    + do 2 eexists. split; [reflexivity |].
      split; [zone_texts Hi |].
      split; [now left |]. split; [reflexivity | intros; lia].
  - destruct (d2 >? 0); cbn.
    + destruct (obj !! (i * 4 + 3)%nat) as [c2 |] eqn:H3; cbn;
        [| apply lookup_ge_None in H3];
        (do 2 eexists; split; [reflexivity |];
         split; [zone_texts Hi |]).
      * split; [now left |]. split; [reflexivity | intros; lia].
      * split; [now right |]. split; [intros; lia | reflexivity].
    + do 2 eexists. split; [reflexivity |].
      split; [zone_texts Hi |].
      split; [now left |]. split; [reflexivity | intros; lia].
Qed.

Lemma draw_zones_cases (obj : list Z) (zones : list nat) :
  Forall (fun i => (i < 9)%nat) zones ->
  exists out r,
    draw_zones obj zones [] = (out, r) /\ Forall zone_text out /\
    (r = Ret tt \/ r = Raise IndexError) /\
    (Forall (fun i => (i * 4 + 3 < length obj)%nat) zones -> r = Ret tt) /\
    (Exists (fun i => (length obj <= i * 4 + 2)%nat) zones ->
     r = Raise IndexError).
Proof.
  induction 1 as [| i rest Hi _ IH]; cbn [draw_zones].
  - exists [], (Ret tt). split; [reflexivity |]. split; [constructor |].
    split; [now left |]. split; [reflexivity |].
    intros H. inversion H.
  - destruct (draw_zone_cases obj i Hi)
      as (o1 & r1 & Hrun1 & Hz1 & Hr1 & Hok1 & Hshort1).
    destruct IH as (o2 & r2 & Hrun2 & Hz2 & Hr2 & Hok2 & Hshort2).
    destruct Hr1 as [-> | ->].
    + rewrite (bind_run _ _ _ _ Hrun1).
      rewrite (framed_run _ o1 _ _ (framed_draw_zones obj rest) Hrun2).
      do 2 eexists. split; [reflexivity |].
      split; [now apply Forall_app |]. split; [exact Hr2 |]. split.
      * intros Hall. inversion Hall; subst. auto.
      * intros Hex. inversion Hex; subst; [| auto].
        match goal with H : (length obj <= _)%nat |- _ =>
          specialize (Hshort1 H); discriminate Hshort1 end.
    + rewrite (bind_raise _ _ _ _ Hrun1).
      do 2 eexists. split; [reflexivity |]. split; [exact Hz1 |].
      split; [now right |]. split; [| reflexivity].
      intros Hall. inversion Hall; subst.
      match goal with H : (i * 4 + 3 < length obj)%nat |- _ =>
        specialize (Hok1 H); discriminate Hok1 end.
Qed.

(** ** The selected distances *)

Lemma zone_best_lookup (obj : list Z) (z : nat) :
  zone_best obj z =
  match obj !! (z * 4 + 1)%nat, obj !! (z * 4 + 3)%nat with
  | Some c1, Some c2 =>
      if c1 >? c2
      then match obj !! (z * 4)%nat with
           | Some d => Ret d
           | None => Raise IndexError
           end
      else match obj !! (z * 4 + 2)%nat with
           | Some d => Ret d
           | None => Raise IndexError
           end
  | _, _ => Raise IndexError
  end.
Proof.
  unfold zone_best, Selection.pick_best, Py.index, Py.slice_from.
  rewrite !lookup_drop. rewrite Nat.add_0_r.
  destruct (obj !! (z * 4 + 1)%nat); cbn; [| reflexivity].
  destruct (obj !! (z * 4 + 3)%nat); cbn; [| reflexivity].
  reflexivity.
Qed.



(** ** The information row *)






Lemma reset_axes_run : reset_axes [] = (reset_log, Ret tt).
Proof. reflexivity. Qed.


(** X13: a payload of 1 to 34 entries makes the zone loop run out of
    entries: after the reset of the axes only zone cells are written, the
    information row and the 3-D view are left untouched, and no exception
    leaves the callback. *)
Theorem short_payload_shows_zones_only (id : option string) (obj : list Z) :
  (0 < length obj < 35)%nat ->
  exists zone_log,
    render id (Some obj) [] = ((reset_log ++ zone_log)%list, Ret tt)
    /\ Forall zone_text zone_log.
Proof.
  intros [Hpos Hlen]. unfold render.
  rewrite (bind_run _ _ _ _ reset_axes_run).
  destruct obj as [| x rest]; [cbn in Hpos; lia |].
  unfold try_index. rewrite (framed_show_object id (x :: rest) reset_log).
  unfold show_object.
  destruct (draw_zones_cases (x :: rest) (seq 0 9))
    as (o1 & r1 & Hrun1 & Hz1 & _ & _ & Hshort).
  { repeat constructor. }
  rewrite Hshort in Hrun1.
  2: { apply Exists_exists. exists 8%nat. split; [| lia].
       apply list_elem_of_In. cbn. tauto. }
  rewrite (bind_raise _ _ _ _ Hrun1). cbn [fst snd].
  exists o1. split; [reflexivity | exact Hz1].
Qed.

Lemma short_payload_shows_zones_only_witness :
  exists zone_log,
    render (Some "id") (Some [640; 33]) []
    = ((reset_log ++ zone_log)%list, Ret tt)
    /\ Forall zone_text zone_log.
Proof.
  apply (short_payload_shows_zones_only (Some "id") [640; 33]). cbn. lia.
Defined.



(** X15: the best reading of the zone [z] is taken from the entries
    [4z] to [4z+3] of the payload: with fewer than [4z+4] entries the
    selection raises [IndexError], otherwise it is the first distance when
    the first confidence is greater and the second distance if not. *)
Theorem zone_best_reads_quadruple (obj : list Z) (z : nat) :
  ((length obj < z * 4 + 4)%nat -> zone_best obj z = Raise IndexError) /\
  (forall d1 c1 d2 c2,
     obj !! (z * 4)%nat = Some d1 -> obj !! (z * 4 + 1)%nat = Some c1 ->
     obj !! (z * 4 + 2)%nat = Some d2 -> obj !! (z * 4 + 3)%nat = Some c2 ->
     zone_best obj z = Ret (if c1 >? c2 then d1 else d2)).
Proof.
  rewrite zone_best_lookup. split.
  - intros Hlen. rewrite (lookup_ge_None_2 obj (z * 4 + 3)%nat) by lia.
    now destruct (obj !! (z * 4 + 1)%nat).
  - intros d1 c1 d2 c2 -> -> -> ->. now destruct (c1 >? c2).
Qed.

Lemma zone_best_reads_quadruple_witness :
  ((length [1; 2; 3; 4; 640; 33; 655; 40] < 2 * 4 + 4)%nat ->
   zone_best [1; 2; 3; 4; 640; 33; 655; 40] 2 = Raise IndexError)
  /\ zone_best [1; 2; 3; 4; 640; 33; 655; 40] 1 = Ret 655.
Proof.
  split.
  - exact (proj1 (zone_best_reads_quadruple [1; 2; 3; 4; 640; 33; 655; 40] 2)).
  - exact (proj2 (zone_best_reads_quadruple [1; 2; 3; 4; 640; 33; 655; 40] 1)
             640 33 655 40 eq_refl eq_refl eq_refl eq_refl).
Defined.



(** ** The whole callback *)






End AnimateFacts.

(** * Version and iteration records *)

Module RecordFacts.

Import Reader ReaderAux Samples ReaderFacts.
Local Open Scope Z_scope.
Local Open Scope string_scope.

(** X19: a version record with at least three fields after its tag sets
    the cached identity to "TMF882X ID .. - App .. - Drv .." made of the
    first three and changes nothing else; with fewer fields the record is
    skipped and the identity stays as it was. *)
Theorem version_record_sets_identity (item : string) (fields : list string)
    (st : state) :
  Py.split ";" item = "#VER" :: fields ->
  try_pass (process_item item) st =
  match fields with
  | d1 :: d2 :: d3 :: _ =>
      ({| xtalk := xtalk st; background := background st;
          iterations := iterations st;
          tof_id := Some ("TMF882X ID " ++ d1 ++ " - App " ++ d2
                          ++ " - Drv " ++ d3) |}, Next tt)
  | _ => (st, Next tt)
  end.
Proof.
  intros Hsplit. unfold try_pass.
  rewrite (process_item_dispatch _ _ _ _ Hsplit). cbn.
  unfold on_ver, Py.index, mbind, M_bind, lift, get, put. cbn.
  destruct fields as [| d1 [| d2 [| d3 rest]]]; reflexivity.
Qed.

Lemma version_record_sets_identity_witness :
  try_pass (process_item "#VER;1a2b;3.4") (initial (Some "old"))
  = (initial (Some "old"), Next tt).
Proof.
  refine (version_record_sets_identity "#VER;1a2b;3.4" ["1a2b"; "3.4"]
            (initial (Some "old")) _).
  vm_compute. reflexivity.
Defined.



End RecordFacts.
